(** * LfD (Localisation from Detections): the demo driver [main.dev.py]

    The driver holds the bounding boxes of every frame in one array [bbs]
    (one row per frame, four columns per object), derives the visibility
    matrix from the sentinel box [1,1,1,2] and hands both to
    [compute_estimates].  The arrays are [float64]; they are embedded here
    as lists of binary64 numbers ([PrimFloat.float]), so that the exact
    equality test of [np.array_equal] is the IEEE comparison of the code. *)

From Stdlib Require Import List Bool Arith Lia ZArith.
From Stdlib Require Import Floats.
Import ListNotations.

Set Warnings "-inexact-float".

(** ** Arrays of floats *)

Module NumPy.

(** [a[lo:hi]] on a one-dimensional array, for [lo <= hi]: the slice is
    clipped at the end of the array. *)
Definition slice {A : Type} (a : list A) (lo hi : nat) : list A :=
  firstn (hi - lo) (skipn lo a).

(** [np.array_equal(a1, a2)]: [False] when the shapes differ, otherwise
    [bool((a1 == a2).all())] with the element-wise IEEE [==]. *)
Fixpoint array_equal (a1 a2 : list float) : bool :=
  match a1, a2 with
  | [], [] => true
  | x :: a1', y :: a2' => PrimFloat.eqb x y && array_equal a1' a2'
  | _, _ => false
  end.

(** A Python list filled by [append] in a [for] loop over [xs]. *)
Definition append_loop {A B : Type} (body : A -> B) (xs : list A) : list B :=
  fold_left (fun acc x => acc ++ [body x]) xs [].

End NumPy.

(** ** The visibility loop (main.dev.py, lines 163-185) *)

Module Main.
Import NumPy.

Definition NUM_BB_CORNER : nat := 4.

(** The literal [[1,1,1,2]] the loop compares every box with. *)
Definition sentinel : list float := [1%float; 1%float; 1%float; 2%float].

(** The box of object [i] in the frame row [bb]:
    [bb[i*NUM_BB_CORNER : i*NUM_BB_CORNER+NUM_BB_CORNER]]. *)
Definition box_of (bb : list float) (i : nat) : list float :=
  slice bb (i * NUM_BB_CORNER) (i * NUM_BB_CORNER + NUM_BB_CORNER).

(** The body of the inner loop: the value appended for object [i]. *)
Definition visible_obj (bb : list float) (i : nat) : bool :=
  if array_equal (box_of bb i) sentinel then false else true.

(** The inner loop for one frame row: [num_obj = int(len(bb) / NUM_BB_CORNER)]
    and one [append] per [i] in [range(num_obj)].  The quotient is a float
    truncated by [int]; for the length of an array that is the integer
    quotient. *)
Definition visible_objs (bb : list float) : list bool :=
  let num_obj := length bb / NUM_BB_CORNER in
  append_loop (visible_obj bb) (seq 0 num_obj).

(** The outer loop: one row of booleans appended per frame row. *)
Definition visibility (bbs : list (list float)) : list (list bool) :=
  append_loop visible_objs bbs.

(** [visibility[f][i]], when both indices are in range. *)
Definition visibility_at (bbs : list (list float)) (f i : nat) : option bool :=
  match nth_error (visibility bbs) f with
  | Some row => nth_error row i
  | None => None
  end.

(** [num_frame = int(len(Ms_t)/NUM_BB_CORNER)] (line 164): the number of
    frames read off the stacked poses, four rows of [Ms_t] per frame. *)
Definition num_frame (Ms_t : list (list float)) : nat :=
  length Ms_t / NUM_BB_CORNER.

(** The array [bbs] of the demo (lines 113-161): 8 frames, 6 objects; in
    frame 0 the objects 1, 2, 4 and 5 carry the unknown box. *)
Local Open Scope float_scope.

Definition bbs : list (list float) :=
  [ [368.97869873; 241.3981781; 429.3835144; 309.05929565;
     1; 1; 1; 2;
     1; 1; 1; 2;
     394.25811768; 323.92715454; 480.84927368; 399.02444458;
     1; 1; 1; 2;
     1; 1; 1; 2];
    [268.71255493; 264.70092773; 338.02108765; 337.12896729;
     345.15518188; 286.14849854; 421.89260864; 356.74407959;
     210.70513916; 339.22924805; 276.33981323; 433.44143677;
     275.58880615; 357.95248413; 366.25387573; 438.51266479;
     233.23313904; 222.92678833; 268.73962402; 286.59417725;
     179.23153687; 274.41543579; 220.40000916; 343.59829712];
    [319.09350586; 278.32012939; 395.9881897; 339.9385376;
     379.24969482; 329.80615234; 466.75039673; 386.69143677;
     217.56640625; 321.81710815; 299.9659729; 406.78347778;
     273.675354; 374.83673096; 360.96035767; 434.42593384;
     312.9446106; 216.79870605; 344.60357666; 280.54574585;
     239.91426086; 248.05413818; 275.54110718; 314.31283569];
    [315.36114502; 316.1701355; 394.37454224; 368.28683472;
     347.30505371; 378.78378296; 440.44546509; 453.36904907;
     188.36791992; 331.16345215; 276.43658447; 404.6635437;
     214.55780029; 385.59359741; 310.82644653; 468.81610107;
     335.87738037; 238.62005615; 369.57720947; 304.73086548;
     250.55516052; 252.22273254; 286.06552124; 319.73846436];
    [256.47576904; 320.72235107; 340.13830566; 386.76333618;
     252.72369385; 390.62054443; 347.45266724; 484.88293457;
     133.39767456; 320.96795654; 218.39674377; 377.56646729;
     132.30621338; 366.24981689; 219.84518433; 459.68603516;
     309.29263306; 250.46266174; 343.53515625; 317.23831177;
     222.79190063; 246.48374939; 258.72210693; 313.45471191];
    [347.63970947; 286.10244751; 421.15863037; 366.22714233;
     305.4281311; 339.4513855; 369.14886475; 436.16751099;
     259.60656738; 244.6635437; 330.96289062; 305.32406616;
     241.35693359; 277.95428467; 285.89572144; 357.82327271;
     424.29995728; 245.79014587; 465.02682495; 313.96707153;
     358.36880493; 212.25823975; 391.81015015; 275.21115112];
    [286.1980896; 289.27526855; 366.60769653; 373.68130493;
     246.02645874; 357.13134766; 322.96966553; 464.18991089;
     182.73692322; 254.81884766; 265.10748291; 316.26983643;
     165.15997314; 295.33834839; 224.18908691; 387.36245728;
     364.89892578; 236.72938538; 404.25271606; 307.05389404;
     289.40112305; 206.87263489; 324.01483154; 273.34524536];
    [313.42510986; 289.61465454; 398.50708008; 364.82751465;
     298.51138306; 360.96524048; 390.03161621; 462.4954834;
     195.63148499; 277.24972534; 278.10684204; 329.93252563;
     189.6361084; 318.38220215; 266.52435303; 412.45333862;
     374.65100098; 225.24407959; 413.30654907; 293.85787964;
     291.13165283; 210.01704407; 325.08905029; 276.91616821] ].

(** The re-ordered row of frame 0 tried in the note above the array (lines
    102-109): the two detected boxes first, then four unknown boxes. *)
Definition frame0_reordered : list float :=
  [368.97869873; 241.3981781; 429.3835144; 309.05929565;
   394.25811768; 323.92715454; 480.84927368; 399.02444458;
   1; 1; 1; 2;
   1; 1; 1; 2;
   1; 1; 1; 2;
   1; 1; 1; 2].

Local Close Scope float_scope.

End Main.

(** ** The estimation pipeline [lfd_dev.compute_estimates]

    The driver imports [compute_estimates] from the module [lfd_dev], calls
    it once (line 207) and documents its conventions and outputs (lines
    31-46).  The definitions of this module follow the written
    specification of that pipeline. *)

Module Lfd.
Import NumPy.

(** A dense two-dimensional [float64] array, as the list of its rows. *)
Definition matrix : Type := list (list float).

Definition nan_matrix (r c : nat) : matrix := repeat (repeat nan c) r.

(** Modelled from the spec: the undefined Quadric of [lfd_dev], the 4x4
    sentinel with all entries NaN. *)
Definition undefined_quadric : matrix := nan_matrix 4 4.

(** Modelled from the spec: the undefined Ellipse of [lfd_dev], the 3x3
    sentinel with all entries NaN. *)
Definition undefined_ellipse : matrix := nan_matrix 3 3.

Definition has_shape (m : matrix) (r c : nat) : bool :=
  (length m =? r) && forallb (fun row => length row =? c) m.

Definition ncols (m : matrix) : nat :=
  match m with
  | [] => 0
  | row :: _ => length row
  end.

Definition col (m : matrix) (j : nat) : list float :=
  map (fun row => nth j row 0%float) m.

Definition transpose (m : matrix) : matrix :=
  map (col m) (seq 0 (ncols m)).

(** The inner product: the products are accumulated from the left. *)
Definition dot (u v : list float) : float :=
  fold_left (fun acc xy => (acc + fst xy * snd xy)%float) (combine u v) 0%float.

Definition mmul (a b : matrix) : matrix :=
  map (fun row => map (fun j => dot row (col b j)) (seq 0 (ncols b))) a.

Definition symmetric (m : matrix) : Prop := transpose m = m.

(** The entry [m[i, k]]. *)
Definition entry (m : matrix) (i k : nat) : float :=
  nth k (nth i m []) 0%float.

(** A sum of four terms, accumulated from the left starting from zero. *)
Definition sum4 (t : nat -> float) : float :=
  (0 + t 0%nat + t 1%nat + t 2%nat + t 3%nat)%float.

(** Modelled from the spec: the projection relation "P * Q * P^T" of the
    Forward Projector of [lfd_dev] written out for one entry of the 3x3
    conic, in binary64: the sum over [l] of [(P * Q)[i, l] * P[j, l]], where
    [(P * Q)[i, l]] is the sum over [k] of [P[i, k] * Q[k, l]]. *)
Definition conic_entry (P Q : matrix) (i j : nat) : float :=
  sum4 (fun l => (sum4 (fun k => (entry P i k * entry Q k l)%float)
                  * entry P j l)%float).

(** Modelled from the spec: the 3x3 dual conic "P * Q * P^T", entry by
    entry, before its scale is normalised. *)
Definition conic (P Q : matrix) : matrix :=
  map (fun i => map (conic_entry P Q i) [0; 1; 2]) [0; 1; 2].

(** Modelled from the spec: one element of the ObjectObservationSet that
    the estimator of [lfd_dev] works on: the frame index, the Ellipse of the
    detection and the projection matrix of the frame. *)
Record observation : Type := Observation {
  obs_frame : nat;
  obs_ellipse : matrix;
  obs_projection : matrix
}.

(** Modelled from the spec: the numerical routines of [lfd_dev] that the
    specification describes without fixing their arithmetic, taken as
    parameters of the pipeline: the converter from a box to a dual
    conic (4.1), the stacking of the linear system (4.3, step 3), the right
    singular vector of the smallest singular value (step 4), the scale by
    which a matrix is normalised (steps 5 and 4.4) and the validity check of
    an ellipsoid (step 6). *)
Record Numerics : Type := {
  bb_to_ellipse : list float -> matrix;
  build_system : list observation -> matrix;
  null_vector : matrix -> list float;
  scale_of : matrix -> float;
  is_ellipsoid : matrix -> bool
}.

Section Pipeline.

Context (N : Numerics).

(** Modelled from the spec: the scale normalisation of [lfd_dev], every
    entry divided by the scale of the matrix. *)
Definition normalize (m : matrix) : matrix :=
  let s := scale_of N m in map (map (fun x => (x / s)%float)) m.

(** Modelled from the spec: the sign flip of step 6 of the estimator of
    [lfd_dev], Q and -Q denoting the same object. *)
Definition negate (m : matrix) : matrix := map (map PrimFloat.opp) m.

(** Modelled from the spec: step 5 of the estimator of [lfd_dev], the ten
    independent entries written back into a symmetric 4x4 matrix (upper
    triangle in row order). *)
Definition vec_to_symmetric (x : list float) : matrix :=
  let e k := nth k x 0%float in
  [ [e 0; e 1; e 2; e 3];
    [e 1; e 4; e 5; e 6];
    [e 2; e 5; e 7; e 8];
    [e 3; e 6; e 8; e 9] ].

(** Modelled from the spec: steps 3 to 6 of the estimator of [lfd_dev] for
    one observation set: solve the stacked system, reshape and normalise,
    then validate, trying the opposite sign once before giving up. *)
Definition solve_quadric (obs : list observation) : matrix :=
  let x := null_vector N (build_system N obs) in
  let Q := normalize (vec_to_symmetric x) in
  if is_ellipsoid N Q then Q
  else if is_ellipsoid N (negate Q) then negate Q
  else undefined_quadric.

(** The camera pose of frame [f]: [Ms_t] stacks the transposed 3x4 poses,
    four rows per frame (main.dev.py, lines 70-74). *)
Definition pose (Ms_t : matrix) (f : nat) : matrix :=
  transpose (slice Ms_t (f * 4) (f * 4 + 4)).

(** Modelled from the spec: the projection matrix P = K * M of a frame. *)
Definition projection (K Ms_t : matrix) (f : nat) : matrix :=
  mmul K (pose Ms_t f).

(** The entry [visibility[f, j]] of the matrix handed to
    [compute_estimates]. *)
Definition visible (vis : list (list bool)) (f j : nat) : bool :=
  nth j (nth f vis []) false.

(** [visibility.shape[0]] and [visibility.shape[1]] (main.dev.py, lines
    198-199). *)
Definition n_frames (vis : list (list bool)) : nat := length vis.

Definition n_objects (vis : list (list bool)) : nat :=
  match vis with
  | [] => 0
  | row :: _ => length row
  end.

(** Modelled from the spec: the count of visible frames of object [j],
    the sum of column [j] of the visibility matrix. *)
Definition visible_count (vis : list (list bool)) (j : nat) : nat :=
  length (filter (fun f => visible vis f j) (seq 0 (n_frames vis))).

(** Modelled from the spec: step 1 of the estimator of [lfd_dev], the
    ObjectObservationSet of object [j]: one triple per frame where the
    object is visible, its Ellipse built from its own box only. *)
Definition observations (bbs K Ms_t : matrix) (vis : list (list bool))
    (j : nat) : list observation :=
  flat_map
    (fun f =>
       if visible vis f j
       then [Observation f (bb_to_ellipse N (Main.box_of (nth f bbs []) j))
                         (projection K Ms_t f)]
       else [])
    (seq 0 (n_frames vis)).

(** Modelled from the spec: the Dual-Quadric Estimator of [lfd_dev] for
    object [j]: the undefined Quadric below three visible frames, the
    solution of the linear system otherwise. *)
Definition estimate_quadric (bbs K Ms_t : matrix) (vis : list (list bool))
    (j : nat) : matrix :=
  if visible_count vis j <? 3 then undefined_quadric
  else solve_quadric (observations bbs K Ms_t vis j).

(** Modelled from the spec: the Forward Projector of [lfd_dev], the dual
    conic P * Q * P^T, scale-normalised. *)
Definition project (P Q : matrix) : matrix :=
  normalize (mmul (mmul P Q) (transpose P)).

(** Modelled from the spec: [lfd_dev.compute_estimates], returning
    [inputCs] (an Ellipse per visible frame and object), [estCs] (the
    projection of every object's Quadric into every frame) and [estQs]
    (a Quadric per object). *)
Definition compute_estimates (bbs K Ms_t : matrix) (vis : list (list bool))
    : list (list (option matrix)) * list (list matrix) * list matrix :=
  let objects := seq 0 (n_objects vis) in
  let frames := seq 0 (n_frames vis) in
  let estQs := map (estimate_quadric bbs K Ms_t vis) objects in
  let estCs :=
    map (fun f => map (project (projection K Ms_t f)) estQs) frames in
  let inputCs :=
    map (fun f =>
           map (fun j =>
                  if visible vis f j
                  then Some (bb_to_ellipse N (Main.box_of (nth f bbs []) j))
                  else None)
               objects)
        frames in
  (inputCs, estCs, estQs).

(** The three outputs by name. *)
Definition input_ellipses (bbs K Ms_t : matrix) (vis : list (list bool)) :=
  fst (fst (compute_estimates bbs K Ms_t vis)).

Definition estimated_ellipses (bbs K Ms_t : matrix) (vis : list (list bool)) :=
  snd (fst (compute_estimates bbs K Ms_t vis)).

Definition estimated_quadrics (bbs K Ms_t : matrix) (vis : list (list bool)) :=
  snd (compute_estimates bbs K Ms_t vis).

End Pipeline.

End Lfd.

(** ** Small inputs on which the statements below are evaluated *)

Module Sample.
Import Lfd.

Local Open Scope float_scope.

(** Stand-ins for the numerical routines: any functions will do for the
    statements below, which hold for every choice of them. *)
Definition numerics : Numerics := {|
  bb_to_ellipse := fun box => [box];
  build_system := fun obs => flat_map obs_ellipse obs;
  null_vector := fun a => concat a;
  scale_of := fun _ => 1;
  is_ellipsoid := fun _ => true
|}.

Definition K : matrix :=
  [ [500; 0; 320];
    [0; 500; 240];
    [0; 0; 1] ].

(** Three camera poses, transposed and stacked as in [Ms_t]. *)
Definition Ms_t : matrix :=
  [ [1; 0; 0]; [0; 1; 0]; [0; 0; 1]; [0; 0; 4];
    [1; 0; 0]; [0; 1; 0]; [0; 0; 1]; [1; 0; 4];
    [1; 0; 0]; [0; 1; 0]; [0; 0; 1]; [0; 1; 4] ].

(** Three frames, two objects; object 1 is not detected in frame 1. *)
Definition bbs : matrix :=
  [ [10; 20; 30; 40;   50; 60; 70; 80];
    [11; 21; 31; 41;   1; 1; 1; 2];
    [12; 22; 32; 42;   52; 62; 72; 82] ].

(** The same detections of object 0, other detections of object 1. *)
Definition bbs' : matrix :=
  [ [10; 20; 30; 40;   1; 1; 1; 2];
    [11; 21; 31; 41;   55; 65; 75; 85];
    [12; 22; 32; 42;   1; 1; 1; 2] ].

(** A 3x4 projection matrix and a symmetric 4x4 matrix. *)
Definition P : matrix :=
  [ [0.1; 0.2; 0.3; 0.7];
    [1.1; 0.9; 0.3; 0.13];
    [0.5; 0.77; 0.21; 1] ].

Definition Q : matrix :=
  [ [0.3; 0.1; 0.7; 0.2];
    [0.1; 0.9; 0.4; 0.6];
    [0.7; 0.4; 0.11; 0.3];
    [0.2; 0.6; 0.3; -1] ].

(** A camera looking at the unit sphere: P = [I | t] with t = (4, 8, 3),
    and the dual quadric diag(1, 1, 1, -1) of the sphere. *)
Definition camera : matrix :=
  [ [1; 0; 0; 4];
    [0; 1; 0; 8];
    [0; 0; 1; 3] ].

Definition sphere : matrix :=
  [ [1; 0; 0; 0];
    [0; 1; 0; 0];
    [0; 0; 1; 0];
    [0; 0; 0; -1] ].

(** The routines with the scale chosen so that the reference entry [2, 2]
    of a normalised conic is -1. *)
Definition reference_numerics : Numerics := {|
  bb_to_ellipse := bb_to_ellipse numerics;
  build_system := build_system numerics;
  null_vector := null_vector numerics;
  scale_of := fun m => - entry m 2 2;
  is_ellipsoid := is_ellipsoid numerics
|}.

End Sample.

(** * Properties *)

(** ** Binary64 facts used below *)

Section FloatFacts.

Lemma SFeqb_finite_eq (a : SpecFloat.spec_float) (s : bool) (m : positive) (e : Z) :
  SpecFloat.SFeqb a (SpecFloat.S754_finite s m e) = true ->
  a = SpecFloat.S754_finite s m e.
Proof.
  unfold SpecFloat.SFeqb, SpecFloat.SFcompare.
  destruct a as [sa | sa | | sa ma ea]; try discriminate.
  - destruct sa, s; discriminate.
  - destruct sa; discriminate.
  - destruct sa, s; try discriminate;
      destruct (Z.compare_spec ea e) as [He | He | He]; try discriminate;
      rewrite Pos.compare_cont_spec; simpl;
      destruct (Pos.compare_spec ma m) as [Hm | Hm | Hm]; try discriminate;
      intros _; subst; reflexivity.
Qed.

(** IEEE equality with a finite non-zero constant is Leibniz equality. *)
Lemma eqb_finite_eq (x y : float) (s : bool) (m : positive) (e : Z) :
  Prim2SF y = SpecFloat.S754_finite s m e ->
  PrimFloat.eqb x y = true -> x = y.
Proof.
  intros Hy H. rewrite eqb_spec, Hy in H.
  apply SFeqb_finite_eq in H.
  apply Prim2SF_inj. congruence.
Qed.

Lemma eqb_one (x : float) : PrimFloat.eqb x 1%float = true <-> x = 1%float.
Proof.
  split.
  - apply (eqb_finite_eq x 1%float false 4503599627370496%positive (-52)%Z).
    reflexivity.
  - intros ->. reflexivity.
Qed.

Lemma eqb_two (x : float) : PrimFloat.eqb x 2%float = true <-> x = 2%float.
Proof.
  split.
  - apply (eqb_finite_eq x 2%float false 4503599627370496%positive (-51)%Z).
    reflexivity.
  - intros ->. reflexivity.
Qed.

Lemma Prim2SF_nan : Prim2SF nan = SpecFloat.S754_nan.
Proof. reflexivity. Qed.

Lemma nan_of_spec (x : float) : Prim2SF x = SpecFloat.S754_nan -> x = nan.
Proof. intros H. apply Prim2SF_inj. rewrite H. reflexivity. Qed.

Lemma mul_nan_l (x : float) : (nan * x)%float = nan.
Proof. apply nan_of_spec. rewrite mul_spec, Prim2SF_nan. reflexivity. Qed.

Lemma mul_nan_r (x : float) : (x * nan)%float = nan.
Proof.
  apply nan_of_spec. rewrite mul_spec, Prim2SF_nan.
  destruct (Prim2SF x); reflexivity.
Qed.

Lemma add_nan_l (x : float) : (nan + x)%float = nan.
Proof. apply nan_of_spec. rewrite add_spec, Prim2SF_nan. reflexivity. Qed.

Lemma add_nan_r (x : float) : (x + nan)%float = nan.
Proof.
  apply nan_of_spec. rewrite add_spec, Prim2SF_nan.
  destruct (Prim2SF x); reflexivity.
Qed.

Lemma div_nan_l (x : float) : (nan / x)%float = nan.
Proof. apply nan_of_spec. rewrite div_spec, Prim2SF_nan. reflexivity. Qed.

End FloatFacts.

(** ** The visibility loop *)

Section VisibilityFacts.
Import NumPy Main.

Lemma append_loop_from {A B : Type} (body : A -> B) (xs : list A) (acc : list B) :
  fold_left (fun acc x => acc ++ [body x]) xs acc = acc ++ map body xs.
Proof.
  revert acc. induction xs as [| x xs IH]; intros acc; simpl.
  - now rewrite app_nil_r.
  - rewrite IH, <- app_assoc. reflexivity.
Qed.

Lemma append_loop_map {A B : Type} (body : A -> B) (xs : list A) :
  append_loop body xs = map body xs.
Proof. unfold append_loop. now rewrite append_loop_from. Qed.

Lemma visible_objs_map (bb : list float) :
  visible_objs bb = map (visible_obj bb) (seq 0 (length bb / NUM_BB_CORNER)).
Proof. unfold visible_objs. apply append_loop_map. Qed.

Lemma visibility_map (bbs : list (list float)) :
  visibility bbs = map visible_objs bbs.
Proof. unfold visibility. apply append_loop_map. Qed.

Lemma visible_obj_negb (bb : list float) (i : nat) :
  visible_obj bb i = negb (array_equal (box_of bb i) sentinel).
Proof. unfold visible_obj. now destruct (array_equal _ _). Qed.

(** The comparison with the sentinel holds for the list [1;1;1;2] alone. *)
Lemma array_equal_sentinel (box : list float) :
  array_equal box sentinel = true <-> box = sentinel.
Proof.
  unfold sentinel. split.
  - destruct box as [| a [| b [| c [| d [| e box]]]]]; simpl; intros H;
      repeat match type of H with
             | (_ && _) = true => apply andb_prop in H; destruct H as [? H]
             end;
      try discriminate.
    repeat match goal with
           | E : PrimFloat.eqb _ 1%float = true |- _ => apply eqb_one in E
           | E : PrimFloat.eqb _ 2%float = true |- _ => apply eqb_two in E
           end.
    subst. reflexivity.
  - intros ->. reflexivity.
Qed.

Lemma slice_app_middle {A : Type} (pre box post : list A) (lo hi : nat) :
  length pre = lo -> lo + length box = hi ->
  slice (pre ++ box ++ post) lo hi = box.
Proof.
  intros Hlo Hhi. unfold slice.
  rewrite skipn_app, <- Hlo, skipn_all, Nat.sub_diag. simpl.
  replace (hi - length pre) with (length box + 0) by lia.
  rewrite firstn_app_2. simpl. apply app_nil_r.
Qed.

Lemma box_of_app (pre box post : list float) (i : nat) :
  length pre = 4 * i -> length box = 4 ->
  box_of (pre ++ box ++ post) i = box.
Proof.
  intros Hpre Hbox. unfold box_of, NUM_BB_CORNER.
  apply slice_app_middle; lia.
Qed.

Lemma visible_objs_length (bb : list float) :
  length (visible_objs bb) = length bb / 4.
Proof. rewrite visible_objs_map. now rewrite length_map, length_seq. Qed.

Lemma visible_objs_nth (bb : list float) (i : nat) :
  i < length bb / 4 ->
  nth_error (visible_objs bb) i = Some (visible_obj bb i).
Proof.
  intros Hi. rewrite visible_objs_map.
  rewrite nth_error_map. unfold NUM_BB_CORNER.
  rewrite nth_error_nth' with (d := 0) by now rewrite length_seq.
  rewrite seq_nth by assumption. reflexivity.
Qed.

Lemma visibility_at_row (bbs : list (list float)) (f i : nat) (bb : list float) :
  nth_error bbs f = Some bb -> i < length bb / 4 ->
  visibility_at bbs f i = Some (visible_obj bb i).
Proof.
  intros Hf Hi. unfold visibility_at.
  rewrite visibility_map, nth_error_map, Hf. simpl.
  now apply visible_objs_nth.
Qed.

(** A box inside the complete groups of a row is not touched by what
    follows the groups. *)
Lemma box_of_app_tail (body tail : list float) (n i : nat) :
  length body = 4 * n -> i < n ->
  box_of (body ++ tail) i = box_of body i.
Proof.
  intros Hbody Hi. unfold box_of, slice, NUM_BB_CORNER.
  rewrite skipn_app.
  replace (i * 4 - length body) with 0 by lia. simpl.
  rewrite firstn_app.
  replace (i * 4 + 4 - i * 4 - length (skipn (i * 4) body)) with 0
    by (rewrite length_skipn; lia).
  simpl. apply app_nil_r.
Qed.

End VisibilityFacts.

Section VisibilityClaims.
Import NumPy Main.

(** C2. For every frame index [f] and object index [i], the entry of the
    visibility matrix is [True] exactly when the four values of the box are
    not the sentinel (1,1,1,2).  The test is the exact equality of
    [np.array_equal]: the answer is determined by the four values alone,
    whatever the frame, the position of the box in its row ([pre]) and the
    other boxes of the row ([pre], [post]). *)
Theorem visibility_iff_not_sentinel
    (bbs : list (list float)) (f i : nat) (pre box post : list float) :
  nth_error bbs f = Some (pre ++ box ++ post) ->
  length pre = 4 * i ->
  length box = 4 ->
  exists v : bool,
    visibility_at bbs f i = Some v /\
    v = negb (array_equal box sentinel) /\
    (v = true <-> box <> sentinel).
Proof.
  intros Hf Hpre Hbox.
  exists (negb (array_equal box sentinel)).
  split; [| split]; [| reflexivity |].
  - rewrite (visibility_at_row bbs f i _ Hf).
    + rewrite visible_obj_negb, box_of_app by assumption. reflexivity.
    + rewrite !length_app, Hpre, Hbox.
      apply Nat.div_le_lower_bound; lia.
  - rewrite negb_true_iff, <- not_true_iff_false, array_equal_sentinel.
    reflexivity.
Qed.

Lemma visibility_iff_not_sentinel_witness :
  nth_error bbs 0 =
    Some (firstn 12 (nth 0 bbs []) ++ firstn 4 (skipn 12 (nth 0 bbs []))
            ++ skipn 16 (nth 0 bbs [])) /\
  length (firstn 12 (nth 0 bbs [])) = 4 * 3 /\
  length (firstn 4 (skipn 12 (nth 0 bbs []))) = 4 /\
  exists v : bool,
    visibility_at bbs 0 3 = Some v /\
    v = negb (array_equal (firstn 4 (skipn 12 (nth 0 bbs []))) sentinel) /\
    (v = true <-> firstn 4 (skipn 12 (nth 0 bbs [])) <> sentinel).
Proof.
  split; [reflexivity | split; [reflexivity | split; [reflexivity |]]].
  apply (visibility_iff_not_sentinel bbs 0 3
           (firstn 12 (nth 0 bbs [])) (firstn 4 (skipn 12 (nth 0 bbs [])))
           (skipn 16 (nth 0 bbs []))); reflexivity.
Defined.

(** No tolerance: a box one unit in the last place away from the sentinel
    is visible, and so are a one-pixel box and a box with a NaN value. *)
Example visibility_no_tolerance :
  visible_objs [1%float; 1%float; 1%float; next_up 2%float;
                0%float; 0%float; 1%float; 1%float;
                1%float; 1%float; 1%float; nan;
                1%float; 1%float; 1%float; 2%float]
  = [true; true; true; false].
Proof. vm_compute. reflexivity. Qed.

(** C3. On the array [bbs] of the demo (8 frames, 6 objects, 24 values per
    row), where frame 0 has boxes for the objects 0 and 3 and the sentinel
    for the other four, the row of frame 0 of the visibility matrix is
    [True, False, False, True, False, False]. *)
Theorem visibility_frame0_demo :
  length bbs = 8 /\
  map (@length float) bbs = repeat 24 8 /\
  map (box_of (nth 0 bbs [])) [1; 2; 4; 5] = repeat sentinel 4 /\
  nth_error (visibility bbs) 0 = Some [true; false; false; true; false; false].
Proof. repeat split; vm_compute; reflexivity. Qed.

(** The flags of a row of [n] complete groups followed by fewer than four
    values: one flag per group, the trailing values unread. *)
Lemma visible_objs_complete_groups (body tail : list float) (n : nat) :
  length body = 4 * n ->
  length tail < 4 ->
  length (body ++ tail) / 4 = n /\
  visible_objs (body ++ tail) =
    map (fun i => negb (array_equal (slice body (4 * i) (4 * i + 4)) sentinel))
        (seq 0 n) /\
  visible_objs (body ++ tail) = visible_objs body.
Proof.
  intros Hbody Htail.
  assert (Hn : length (body ++ tail) / 4 = n).
  { rewrite length_app, Hbody.
    symmetry. apply Nat.div_unique with (r := length tail); lia. }
  assert (Hb : length body / 4 = n).
  { rewrite Hbody. symmetry. apply Nat.div_unique with (r := 0); lia. }
  assert (Hgroups : visible_objs (body ++ tail) = visible_objs body).
  { rewrite !visible_objs_map. unfold NUM_BB_CORNER. rewrite Hn, Hb.
    apply map_ext_in. intros i Hi. apply in_seq in Hi.
    rewrite !visible_obj_negb.
    rewrite (box_of_app_tail body tail n i) by lia. reflexivity. }
  split; [exact Hn | split; [| exact Hgroups]].
  rewrite Hgroups, visible_objs_map. unfold NUM_BB_CORNER. rewrite Hb.
  apply map_ext. intros i. rewrite visible_obj_negb.
  unfold box_of, NUM_BB_CORNER. now rewrite (Nat.mul_comm i 4).
Qed.

(** C10. The visibility has one row per frame row of the array.  For the
    frame [f] whose row is [n] complete groups of four values ([body])
    followed by fewer than four values ([tail]), the row of the visibility
    has exactly [n = floor(len/4)] booleans; the [i]-th is the test of the
    [i]-th group in order, and the trailing values have no effect: the same
    row is emitted for an array whose frame [f] is [body] alone. *)
Theorem visibility_row_groups
    (bbs : list (list float)) (f n : nat) (body tail : list float) :
  nth_error bbs f = Some (body ++ tail) ->
  length body = 4 * n ->
  length tail < 4 ->
  length (visibility bbs) = length bbs /\
  exists row : list bool,
    nth_error (visibility bbs) f = Some row /\
    length row = length (body ++ tail) / 4 /\
    length (body ++ tail) / 4 = n /\
    row =
      map (fun i => negb (array_equal (slice body (4 * i) (4 * i + 4)) sentinel))
          (seq 0 n) /\
    (forall bbs' : list (list float),
        nth_error bbs' f = Some body ->
        nth_error (visibility bbs') f = Some row).
Proof.
  intros Hf Hbody Htail.
  destruct (visible_objs_complete_groups body tail n Hbody Htail)
    as (Hn & Hrow & Hsame).
  split.
  - now rewrite visibility_map, length_map.
  - exists (visible_objs (body ++ tail)). split; [| split; [| split; [| split]]].
    + now rewrite visibility_map, nth_error_map, Hf.
    + apply visible_objs_length.
    + exact Hn.
    + exact Hrow.
    + intros bbs' Hf'.
      now rewrite visibility_map, nth_error_map, Hf', Hsame.
Qed.

Lemma visibility_row_groups_witness :
  nth_error
    [ [9%float; 9%float; 9%float; 9%float];
      [5%float; 6%float; 7%float; 8%float; 1%float; 1%float; 1%float; 2%float]
        ++ [1%float; 1%float; 1%float] ] 1 =
    Some ([5%float; 6%float; 7%float; 8%float; 1%float; 1%float; 1%float; 2%float]
            ++ [1%float; 1%float; 1%float]) /\
  length [5%float; 6%float; 7%float; 8%float; 1%float; 1%float; 1%float; 2%float]
    = 4 * 2 /\
  length [1%float; 1%float; 1%float] < 4 /\
  nth_error
    (visibility
       [ [9%float; 9%float; 9%float; 9%float];
         [5%float; 6%float; 7%float; 8%float; 1%float; 1%float; 1%float; 2%float]
           ++ [1%float; 1%float; 1%float] ]) 1 = Some [true; false].
Proof.
  split; [reflexivity | split; [reflexivity | split; [simpl; lia |]]].
  destruct (visibility_row_groups
              [ [9%float; 9%float; 9%float; 9%float];
                [5%float; 6%float; 7%float; 8%float;
                 1%float; 1%float; 1%float; 2%float]
                  ++ [1%float; 1%float; 1%float] ] 1 2
              [5%float; 6%float; 7%float; 8%float;
               1%float; 1%float; 1%float; 2%float]
              [1%float; 1%float; 1%float])
    as (_ & row & Hrow & _ & _ & Hflags & _);
    [reflexivity | reflexivity | simpl; lia |].
  rewrite Hrow, Hflags. reflexivity.
Defined.

End VisibilityClaims.

(** ** Matrices with NaN entries *)

Section NanFacts.
Import Lfd.

Lemma has_shape_spec (m : matrix) (r c : nat) :
  has_shape m r c = true <->
  length m = r /\ Forall (fun row => length row = c) m.
Proof.
  unfold has_shape.
  rewrite andb_true_iff, Nat.eqb_eq, forallb_forall, Forall_forall.
  split; intros [Hr Hc]; split; try exact Hr; intros row Hrow.
  - apply Nat.eqb_eq. now apply Hc.
  - apply Nat.eqb_eq. now apply Hc.
Qed.

(** Once the accumulator of an inner product is NaN it stays NaN. *)
Lemma dot_acc_nan (l : list (float * float)) :
  fold_left (fun acc xy => (acc + fst xy * snd xy)%float) l nan = nan.
Proof.
  induction l as [| xy l IH]; simpl; [reflexivity |].
  now rewrite add_nan_l.
Qed.

Lemma dot_nan_r (x : float) (u v : list float) :
  dot (x :: u) (nan :: v) = nan.
Proof.
  unfold dot. simpl. rewrite mul_nan_r, add_nan_r. apply dot_acc_nan.
Qed.

Lemma dot_nan_l (y : float) (u v : list float) :
  dot (nan :: u) (y :: v) = nan.
Proof.
  unfold dot. simpl. rewrite mul_nan_l, add_nan_r. apply dot_acc_nan.
Qed.

Lemma col_nan_matrix (r c j : nat) :
  j < c -> col (nan_matrix r c) j = repeat nan r.
Proof.
  intros Hj. unfold col, nan_matrix.
  rewrite map_repeat. now rewrite nth_repeat_lt.
Qed.

Lemma ncols_nan_matrix (r c : nat) : ncols (nan_matrix (S r) c) = c.
Proof. simpl. apply repeat_length. Qed.

(** A product whose right factor is all NaN is all NaN, when the rows of
    the left factor are not empty. *)
Lemma mmul_nan_r (a : matrix) (k r c : nat) :
  Forall (fun row => length row = S k) a ->
  mmul a (nan_matrix (S r) c) = nan_matrix (length a) c.
Proof.
  intros Ha. unfold mmul. rewrite ncols_nan_matrix.
  change (nan_matrix (length a) c) with (repeat (repeat nan c) (length a)).
  rewrite <- map_const.
  apply map_ext_in. intros row Hrow.
  rewrite Forall_forall in Ha. specialize (Ha row Hrow).
  destruct row as [| x row]; [discriminate |].
  replace (repeat nan c) with (map (fun _ : nat => nan) (seq 0 c))
    by (now rewrite map_const, length_seq).
  apply map_ext_in. intros j Hj. apply in_seq in Hj.
  rewrite col_nan_matrix by lia. simpl. apply dot_nan_r.
Qed.

(** A product whose left factor is all NaN is all NaN, when the right
    factor has at least one row. *)
Lemma mmul_nan_l (b : matrix) (r k : nat) :
  b <> [] ->
  mmul (nan_matrix r (S k)) b = nan_matrix r (ncols b).
Proof.
  intros Hb. unfold mmul, nan_matrix. rewrite map_repeat. f_equal.
  replace (repeat nan (ncols b))
    with (map (fun _ : nat => nan) (seq 0 (ncols b)))
    by (now rewrite map_const, length_seq).
  apply map_ext. intros j.
  destruct b as [| row b]; [contradiction |].
  simpl. apply dot_nan_l.
Qed.

Lemma transpose_shape (m : matrix) (r c : nat) :
  has_shape m (S r) (S c) = true ->
  has_shape (transpose m) (S c) (S r) = true.
Proof.
  intros H. apply has_shape_spec in H. destruct H as [Hr Hc].
  apply has_shape_spec. unfold transpose.
  destruct m as [| row m]; [discriminate |].
  pose proof (Forall_inv Hc) as Hrow. simpl in Hrow. simpl ncols.
  rewrite Hrow. split.
  - now rewrite length_map, length_seq.
  - apply Forall_forall. intros x Hx. apply in_map_iff in Hx.
    destruct Hx as (j & <- & _). unfold col. now rewrite length_map.
Qed.

Lemma has_shape_ncols (m : matrix) (r c : nat) :
  has_shape m (S r) c = true -> ncols m = c.
Proof.
  intros H. apply has_shape_spec in H. destruct H as [Hr Hc].
  destruct m as [| row m]; [discriminate |].
  exact (Forall_inv Hc).
Qed.

Lemma mmul_shape (a b : matrix) (r : nat) :
  length a = r -> has_shape (mmul a b) r (ncols b) = true.
Proof.
  intros Ha. apply has_shape_spec. unfold mmul. split.
  - now rewrite length_map.
  - apply Forall_forall. intros x Hx. apply in_map_iff in Hx.
    destruct Hx as (row & <- & _). now rewrite length_map, length_seq.
Qed.

Lemma map_seq_nth {A B : Type} (g : A -> B) (l : list A) (d : A) :
  map (fun j => g (nth j l d)) (seq 0 (length l)) = map g l.
Proof.
  induction l as [| x l IH]; simpl; [reflexivity |].
  f_equal. rewrite <- seq_shift, map_map. exact IH.
Qed.

(** Column [j] of the transpose is row [j]. *)
Lemma col_transpose (m : matrix) (r c j : nat) :
  has_shape m r (S c) = true -> j < r ->
  col (transpose m) j = nth j m [].
Proof.
  intros H Hj. apply has_shape_spec in H. destruct H as [Hr Hc].
  assert (Hrow : length (nth j m []) = S c).
  { rewrite Forall_forall in Hc. apply Hc, nth_In. lia. }
  assert (Hn : ncols m = S c).
  { destruct m as [| row m]; [simpl in Hr; lia | exact (Forall_inv Hc)]. }
  unfold transpose, col at 1. rewrite map_map, Hn.
  transitivity (map (fun k => nth k (nth j m []) 0%float) (seq 0 (S c))).
  - apply map_ext. intros k. unfold col.
    pose proof (map_nth (fun row => nth k row 0%float) m [] j) as E.
    cbv beta in E.
    replace (nth k [] 0%float) with 0%float in E by (now destruct k).
    exact E.
  - rewrite <- Hrow.
    etransitivity; [apply (map_seq_nth (fun x => x)) | apply map_id].
Qed.

(** The entries of [a * b^T] are the inner products of the rows. *)
Lemma mmul_transpose (a b : matrix) (r c : nat) :
  has_shape b (S r) (S c) = true ->
  mmul a (transpose b) = map (fun row => map (dot row) b) a.
Proof.
  intros Hb. unfold mmul.
  rewrite (has_shape_ncols _ c (S r) (transpose_shape b r c Hb)).
  apply map_ext. intros row.
  assert (Hlen : length b = S r) by (apply has_shape_spec in Hb; tauto).
  rewrite <- Hlen, <- (map_seq_nth (dot row) b []).
  apply map_ext_in. intros j Hj. apply in_seq in Hj.
  rewrite (col_transpose b (S r) c j Hb) by lia. reflexivity.
Qed.

Lemma Forall_slice {A : Type} (P : A -> Prop) (l : list A) (lo hi : nat) :
  Forall P l -> Forall P (NumPy.slice l lo hi).
Proof.
  intros H. unfold NumPy.slice. rewrite Forall_forall in *.
  intros x Hx. apply H.
  rewrite <- (firstn_skipn lo l). apply in_or_app. right.
  rewrite <- (firstn_skipn (hi - lo) (skipn lo l)). apply in_or_app.
  now left.
Qed.

Lemma pose_shape (Ms_t : matrix) (nf f : nat) :
  has_shape Ms_t (4 * nf) 3 = true -> f < nf ->
  has_shape (pose Ms_t f) 3 4 = true.
Proof.
  intros H Hf. apply has_shape_spec in H. destruct H as [Hr Hc].
  unfold pose. apply transpose_shape. apply has_shape_spec. split.
  - unfold NumPy.slice. rewrite length_firstn, length_skipn. lia.
  - now apply Forall_slice.
Qed.

Lemma projection_shape (K Ms_t : matrix) (nf f : nat) :
  has_shape K 3 3 = true -> has_shape Ms_t (4 * nf) 3 = true -> f < nf ->
  has_shape (projection K Ms_t f) 3 4 = true.
Proof.
  intros HK HM Hf. unfold projection.
  rewrite <- (has_shape_ncols (pose Ms_t f) 2 4 (pose_shape Ms_t nf f HM Hf)).
  apply mmul_shape. apply has_shape_spec in HK. tauto.
Qed.

Lemma normalize_nan_matrix (N : Numerics) (r c : nat) :
  normalize N (nan_matrix r c) = nan_matrix r c.
Proof.
  unfold normalize, nan_matrix. rewrite !map_repeat. now rewrite div_nan_l.
Qed.

(** The projection of the all-NaN Quadric through a 3x4 matrix is the
    all-NaN Ellipse: every entry of both products and of the quotient has a
    NaN operand. *)
Lemma project_undefined (N : Numerics) (P : matrix) :
  has_shape P 3 4 = true ->
  project N P undefined_quadric = undefined_ellipse.
Proof.
  intros HP. unfold project, undefined_quadric, undefined_ellipse.
  pose proof (transpose_shape P 2 3 HP) as HT.
  apply has_shape_spec in HP. destruct HP as [Hr Hc].
  rewrite (mmul_nan_r P 3 3 4 Hc), Hr.
  rewrite mmul_nan_l, (has_shape_ncols _ 3 3 HT).
  - apply normalize_nan_matrix.
  - intros E. rewrite E in HT. discriminate.
Qed.

Lemma length4_inv {A : Type} (l : list A) :
  length l = 4 -> exists a b c d, l = [a; b; c; d].
Proof.
  destruct l as [| a [| b [| c [| d [| e l]]]]]; try discriminate.
  intros _. now exists a, b, c, d.
Qed.

Lemma shape_3_4_inv (P : matrix) :
  has_shape P 3 4 = true ->
  exists p00 p01 p02 p03 p10 p11 p12 p13 p20 p21 p22 p23,
    P = [ [p00; p01; p02; p03]; [p10; p11; p12; p13]; [p20; p21; p22; p23] ].
Proof.
  intros H. apply has_shape_spec in H. destruct H as [Hr Hc].
  destruct P as [| r0 [| r1 [| r2 [| r3 P]]]]; try discriminate.
  inversion Hc as [| ? ? H0 Hc1]; subst.
  inversion Hc1 as [| ? ? H1 Hc2]; subst.
  inversion Hc2 as [| ? ? H2 _]; subst.
  apply length4_inv in H0, H1, H2.
  destruct H0 as (p00 & p01 & p02 & p03 & ->).
  destruct H1 as (p10 & p11 & p12 & p13 & ->).
  destruct H2 as (p20 & p21 & p22 & p23 & ->).
  now exists p00, p01, p02, p03, p10, p11, p12, p13, p20, p21, p22, p23.
Qed.

Lemma shape_4_4_inv (Q : matrix) :
  has_shape Q 4 4 = true ->
  exists r0 r1 r2 r3,
    Q = [r0; r1; r2; r3] /\
    length r0 = 4 /\ length r1 = 4 /\ length r2 = 4 /\ length r3 = 4.
Proof.
  intros H. apply has_shape_spec in H. destruct H as [Hr Hc].
  destruct Q as [| r0 [| r1 [| r2 [| r3 [| r4 Q]]]]]; try discriminate.
  inversion Hc as [| ? ? H0 Hc1]; subst.
  inversion Hc1 as [| ? ? H1 Hc2]; subst.
  inversion Hc2 as [| ? ? H2 Hc3]; subst.
  inversion Hc3 as [| ? ? H3 _]; subst.
  now exists r0, r1, r2, r3.
Qed.

(** The two matrix products of the projector, entry by entry. *)
Lemma mmul_conic (P Q : matrix) :
  has_shape P 3 4 = true -> has_shape Q 4 4 = true ->
  mmul (mmul P Q) (transpose P) = conic P Q.
Proof.
  intros HP HQ.
  destruct (shape_3_4_inv P HP)
    as (p00 & p01 & p02 & p03 & p10 & p11 & p12 & p13
        & p20 & p21 & p22 & p23 & ->).
  destruct (shape_4_4_inv Q HQ) as (r0 & r1 & r2 & r3 & -> & H0 & H1 & H2 & H3).
  apply length4_inv in H0, H1, H2, H3.
  destruct H0 as (q00 & q01 & q02 & q03 & ->).
  destruct H1 as (q10 & q11 & q12 & q13 & ->).
  destruct H2 as (q20 & q21 & q22 & q23 & ->).
  destruct H3 as (q30 & q31 & q32 & q33 & ->).
  reflexivity.
Qed.

End NanFacts.

(** ** The estimator and the projector *)

Section PipelineFacts.
Import Lfd.

Context (N : Numerics).

Lemma length_observations (bbs K Ms_t : matrix) (vis : list (list bool)) (j : nat) :
  length (observations N bbs K Ms_t vis j) = visible_count vis j.
Proof.
  unfold observations, visible_count.
  induction (seq 0 (n_frames vis)) as [| f fs IH]; simpl; [reflexivity |].
  rewrite length_app, IH. now destruct (visible vis f j).
Qed.

(** The Quadric of an object is a function of its observation set. *)
Lemma estimate_quadric_observations
    (bbs K Ms_t : matrix) (vis : list (list bool)) (j : nat) :
  estimate_quadric N bbs K Ms_t vis j =
    let obs := observations N bbs K Ms_t vis j in
    if length obs <? 3 then undefined_quadric else solve_quadric N obs.
Proof.
  unfold estimate_quadric. simpl. now rewrite length_observations.
Qed.

Lemma estQs_nth (bbs K Ms_t : matrix) (vis : list (list bool)) (j : nat) :
  j < n_objects vis ->
  nth_error (estimated_quadrics N bbs K Ms_t vis) j =
    Some (estimate_quadric N bbs K Ms_t vis j).
Proof.
  intros Hj. unfold estimated_quadrics. simpl.
  rewrite nth_error_map, nth_error_seq.
  apply Nat.ltb_lt in Hj. now rewrite Hj.
Qed.

Lemma estCs_nth (bbs K Ms_t : matrix) (vis : list (list bool)) (f j : nat) :
  f < n_frames vis -> j < n_objects vis ->
  exists row,
    nth_error (estimated_ellipses N bbs K Ms_t vis) f = Some row /\
    nth_error row j =
      Some (project N (projection K Ms_t f) (estimate_quadric N bbs K Ms_t vis j)).
Proof.
  intros Hf Hj. unfold estimated_ellipses. simpl.
  rewrite nth_error_map, nth_error_seq.
  apply Nat.ltb_lt in Hf, Hj. rewrite Hf. simpl.
  eexists. split; [reflexivity |].
  rewrite !nth_error_map, nth_error_seq, Hj. reflexivity.
Qed.

Lemma project_shape (P Q : matrix) :
  has_shape P 3 4 = true -> has_shape (project N P Q) 3 3 = true.
Proof.
  intros HP. pose proof (transpose_shape P 2 3 HP) as HT.
  apply has_shape_spec in HP. destruct HP as [Hr _].
  apply has_shape_spec. unfold project, normalize. split.
  - unfold mmul. now rewrite !length_map.
  - apply Forall_forall. intros row Hrow.
    apply in_map_iff in Hrow. destruct Hrow as (row' & <- & Hrow').
    rewrite length_map.
    apply in_map_iff in Hrow'. destruct Hrow' as (row'' & <- & _).
    rewrite length_map, length_seq. apply (has_shape_ncols _ 3 3 HT).
Qed.

Lemma flat_map_ext_in {A B : Type} (g h : A -> list B) (l : list A) :
  (forall x, In x l -> g x = h x) -> flat_map g l = flat_map h l.
Proof.
  induction l as [| x l IH]; intros H; simpl; [reflexivity |].
  rewrite (H x) by now left.
  rewrite IH; [reflexivity |]. intros y Hy. apply H. now right.
Qed.

(** The visibility derived by the driver, read at an entry in range. *)
Lemma visible_visibility (bbs : matrix) (f j : nat) :
  j < length (nth f bbs []) / 4 ->
  visible (Main.visibility bbs) f j =
    negb (NumPy.array_equal (Main.box_of (nth f bbs []) j) Main.sentinel).
Proof.
  intros Hj. unfold visible. rewrite visibility_map.
  change (@nil bool) with (Main.visible_objs []).
  rewrite map_nth.
  rewrite (nth_error_nth _ _ false (visible_objs_nth _ _ Hj)).
  apply visible_obj_negb.
Qed.

(** With the visibility derived from the boxes, the observation set of
    object [j] is determined by the boxes of object [j] and the cameras. *)
Lemma observations_own_boxes (bbs bbs' K Ms_t : matrix) (j : nat) :
  length bbs = length bbs' ->
  (forall f, f < length bbs ->
     j < length (nth f bbs []) / 4 /\ j < length (nth f bbs' []) / 4 /\
     Main.box_of (nth f bbs []) j = Main.box_of (nth f bbs' []) j) ->
  observations N bbs K Ms_t (Main.visibility bbs) j =
    observations N bbs' K Ms_t (Main.visibility bbs') j.
Proof.
  intros Hlen Hbox. unfold observations, n_frames.
  rewrite !visibility_map, !length_map, <- Hlen, <- !visibility_map.
  apply flat_map_ext_in. intros f Hf. apply in_seq in Hf.
  destruct (Hbox f) as (Hj & Hj' & E); [lia |].
  rewrite !visible_visibility by assumption. now rewrite E.
Qed.

End PipelineFacts.

Section PipelineClaims.
Import Lfd.

(** C1. An object visible in fewer than three frames gets the undefined
    Quadric (all entries NaN), whichever frames these are, and its estimated
    Ellipse is undefined in every frame: with a 3x3 [K] and four rows of
    three values per frame in [Ms_t], the projection of the NaN Quadric has
    a NaN operand in every entry. *)
Theorem undefined_below_three_frames
    (N : Numerics) (bbs K Ms_t : matrix) (vis : list (list bool)) (j : nat) :
  j < n_objects vis ->
  visible_count vis j < 3 ->
  nth_error (estimated_quadrics N bbs K Ms_t vis) j = Some undefined_quadric /\
  (has_shape K 3 3 = true ->
   has_shape Ms_t (4 * n_frames vis) 3 = true ->
   forall f, f < n_frames vis ->
     exists row,
       nth_error (estimated_ellipses N bbs K Ms_t vis) f = Some row /\
       nth_error row j = Some undefined_ellipse).
Proof.
  intros Hj Hcount.
  assert (HQ : estimate_quadric N bbs K Ms_t vis j = undefined_quadric).
  { unfold estimate_quadric. apply Nat.ltb_lt in Hcount. now rewrite Hcount. }
  split.
  - now rewrite estQs_nth, HQ.
  - intros HK HM f Hf.
    destruct (estCs_nth N bbs K Ms_t vis f j Hf Hj) as (row & Hrow & Hentry).
    exists row. split; [exact Hrow |].
    rewrite Hentry, HQ. f_equal.
    apply project_undefined. now apply (projection_shape K Ms_t (n_frames vis)).
Qed.

Lemma undefined_below_three_frames_witness :
  1 < n_objects (Main.visibility Sample.bbs) /\
  visible_count (Main.visibility Sample.bbs) 1 < 3 /\
  has_shape Sample.K 3 3 = true /\
  has_shape Sample.Ms_t (4 * n_frames (Main.visibility Sample.bbs)) 3 = true /\
  nth_error (estimated_quadrics Sample.numerics Sample.bbs Sample.K Sample.Ms_t
               (Main.visibility Sample.bbs)) 1 = Some undefined_quadric /\
  forall f, f < n_frames (Main.visibility Sample.bbs) ->
    exists row,
      nth_error (estimated_ellipses Sample.numerics Sample.bbs Sample.K
                   Sample.Ms_t (Main.visibility Sample.bbs)) f = Some row /\
      nth_error row 1 = Some undefined_ellipse.
Proof.
  assert (Hj : 1 < n_objects (Main.visibility Sample.bbs))
    by (vm_compute; lia).
  assert (Hc : visible_count (Main.visibility Sample.bbs) 1 < 3)
    by (vm_compute; lia).
  destruct (undefined_below_three_frames Sample.numerics Sample.bbs Sample.K
              Sample.Ms_t (Main.visibility Sample.bbs) 1 Hj Hc) as [HQ HC].
  repeat split; try assumption.
  exact (HC eq_refl eq_refl).
Defined.

(** C8. For a 3x4 projection matrix P and a 4x4 Quadric Q the Forward
    Projector returns the dual conic P * Q * P^T scale-normalised: a 3x3
    matrix whose entry (i,j) is the sum over l of (P * Q)[i,l] * P[j,l],
    divided by the scale of the conic.  For the undefined Quadric the result
    is the undefined Ellipse, the NaN entries carried through the same
    arithmetic.  The projector has no state: in the pipeline the Ellipse of
    frame [f] and object [j] is the projector applied to the projection
    matrix of [f] and the Quadric of [j], and to nothing else. *)
Theorem forward_projector (N : Numerics) (P Q : matrix) :
  has_shape P 3 4 = true ->
  has_shape Q 4 4 = true ->
  project N P Q =
    map (map (fun x => (x / scale_of N (conic P Q))%float)) (conic P Q) /\
  has_shape (project N P Q) 3 3 = true /\
  project N P undefined_quadric = undefined_ellipse /\
  (forall (bbs K Ms_t : matrix) (vis : list (list bool)) (f j : nat),
      f < n_frames vis -> j < n_objects vis ->
      exists (Qj : matrix) (row : list matrix),
        nth_error (estimated_quadrics N bbs K Ms_t vis) j = Some Qj /\
        nth_error (estimated_ellipses N bbs K Ms_t vis) f = Some row /\
        nth_error row j = Some (project N (projection K Ms_t f) Qj)).
Proof.
  intros HP HQ. split; [| split; [| split]].
  - unfold project, normalize. now rewrite (mmul_conic P Q HP HQ).
  - now apply project_shape.
  - now apply project_undefined.
  - intros bbs K Ms_t vis f j Hf Hj.
    destruct (estCs_nth N bbs K Ms_t vis f j Hf Hj) as (row & Hrow & Hentry).
    exists (estimate_quadric N bbs K Ms_t vis j), row.
    split; [now apply estQs_nth | split; assumption].
Qed.

Lemma forward_projector_witness :
  has_shape Sample.camera 3 4 = true /\
  has_shape Sample.sphere 4 4 = true /\
  project Sample.reference_numerics Sample.camera Sample.sphere =
    [ [(-1.875)%float; (-4)%float; (-1.5)%float];
      [(-4)%float; (-7.875)%float; (-3)%float];
      [(-1.5)%float; (-3)%float; (-1)%float] ] /\
  project Sample.reference_numerics Sample.camera undefined_quadric =
    undefined_ellipse.
Proof.
  destruct (forward_projector Sample.reference_numerics Sample.camera
              Sample.sphere eq_refl eq_refl) as (Hconic & _ & Hnan & _).
  split; [reflexivity | split; [reflexivity | split]].
  - rewrite Hconic. reflexivity.
  - exact Hnan.
Defined.

(** C9. The Quadric of an object depends on the observation set of that
    object and on nothing else.  Two runs with the same observation set for
    object [j] return the same Quadric for [j]; and with the visibility
    derived from the boxes, two runs with the same cameras and the same
    boxes of object [j] in every frame have the same observation set for
    [j], whatever the boxes of the other objects and their number are. *)
Theorem quadric_of_own_observations (N : Numerics) (j : nat) :
  (forall (bbs K Ms_t : matrix) (vis : list (list bool))
          (bbs' K' Ms_t' : matrix) (vis' : list (list bool)),
      j < n_objects vis ->
      j < n_objects vis' ->
      observations N bbs K Ms_t vis j = observations N bbs' K' Ms_t' vis' j ->
      exists Q : matrix,
        nth_error (estimated_quadrics N bbs K Ms_t vis) j = Some Q /\
        nth_error (estimated_quadrics N bbs' K' Ms_t' vis') j = Some Q) /\
  (forall bbs bbs' K Ms_t : matrix,
      0 < length bbs ->
      length bbs = length bbs' ->
      (forall f, f < length bbs ->
         j < length (nth f bbs []) / 4 /\
         j < length (nth f bbs' []) / 4 /\
         Main.box_of (nth f bbs []) j = Main.box_of (nth f bbs' []) j) ->
      observations N bbs K Ms_t (Main.visibility bbs) j =
        observations N bbs' K Ms_t (Main.visibility bbs') j /\
      exists Q : matrix,
        nth_error (estimated_quadrics N bbs K Ms_t (Main.visibility bbs)) j
          = Some Q /\
        nth_error (estimated_quadrics N bbs' K Ms_t (Main.visibility bbs')) j
          = Some Q).
Proof.
  assert (Hsame : forall (bbs K Ms_t : matrix) (vis : list (list bool))
                         (bbs' K' Ms_t' : matrix) (vis' : list (list bool)),
             j < n_objects vis -> j < n_objects vis' ->
             observations N bbs K Ms_t vis j
               = observations N bbs' K' Ms_t' vis' j ->
             exists Q : matrix,
               nth_error (estimated_quadrics N bbs K Ms_t vis) j = Some Q /\
               nth_error (estimated_quadrics N bbs' K' Ms_t' vis') j = Some Q).
  { intros bbs K Ms_t vis bbs' K' Ms_t' vis' Hj Hj' Hobs.
    exists (estimate_quadric N bbs K Ms_t vis j).
    rewrite !estQs_nth by assumption. split; [reflexivity |].
    rewrite !estimate_quadric_observations. now rewrite Hobs. }
  split; [exact Hsame |].
  intros bbs bbs' K Ms_t Hpos Hlen Hbox.
  assert (Hobj : forall b : matrix,
             0 < length b -> j < length (nth 0 b []) / 4 ->
             j < n_objects (Main.visibility b)).
  { intros b Hb Hj0. rewrite visibility_map.
    destruct b as [| row b]; [simpl in Hb; lia |].
    simpl. now rewrite visible_objs_length. }
  pose proof (observations_own_boxes N bbs bbs' K Ms_t j Hlen Hbox) as Hobs.
  destruct (Hbox 0 Hpos) as (Hj & Hj' & _).
  split; [exact Hobs |].
  apply Hsame; [apply Hobj | apply Hobj | exact Hobs]; try assumption.
  now rewrite <- Hlen.
Qed.

Lemma quadric_of_own_observations_witness :
  0 < length Sample.bbs /\
  length Sample.bbs = length Sample.bbs' /\
  (forall f, f < length Sample.bbs ->
     0 < length (nth f Sample.bbs []) / 4 /\
     0 < length (nth f Sample.bbs' []) / 4 /\
     Main.box_of (nth f Sample.bbs []) 0 =
       Main.box_of (nth f Sample.bbs' []) 0) /\
  Main.visibility Sample.bbs <> Main.visibility Sample.bbs' /\
  exists Q : matrix,
    nth_error (estimated_quadrics Sample.numerics Sample.bbs Sample.K
                 Sample.Ms_t (Main.visibility Sample.bbs)) 0 = Some Q /\
    nth_error (estimated_quadrics Sample.numerics Sample.bbs' Sample.K
                 Sample.Ms_t (Main.visibility Sample.bbs')) 0 = Some Q.
Proof.
  assert (Hpos : 0 < length Sample.bbs) by (simpl; lia).
  assert (Hbox : forall f, f < length Sample.bbs ->
            0 < length (nth f Sample.bbs []) / 4 /\
            0 < length (nth f Sample.bbs' []) / 4 /\
            Main.box_of (nth f Sample.bbs []) 0 =
              Main.box_of (nth f Sample.bbs' []) 0).
  { intros f Hf.
    destruct f as [| [| [| f]]]; [| | | simpl in Hf; lia];
      (split; [vm_compute; lia | split; [vm_compute; lia | reflexivity]]). }
  split; [exact Hpos | split; [reflexivity | split; [exact Hbox | split]]].
  - vm_compute. discriminate.
  - destruct (quadric_of_own_observations Sample.numerics 0) as [_ Hown].
    exact (proj2 (Hown Sample.bbs Sample.bbs' Sample.K Sample.Ms_t
                    Hpos eq_refl Hbox)).
Defined.

End PipelineClaims.

(** ** Further facts about the estimator *)

Section EstimatorFacts.
Import Lfd.

Context (N : Numerics).

(** Changing the boxes of the other objects leaves the Quadric of object
    [j] unchanged, the visibility being derived from the boxes. *)
Lemma quadric_ignores_other_objects (bbs bbs' K Ms_t : matrix) (j : nat) :
  length bbs = length bbs' ->
  (forall f, f < length bbs ->
     j < length (nth f bbs []) / 4 /\ j < length (nth f bbs' []) / 4 /\
     Main.box_of (nth f bbs []) j = Main.box_of (nth f bbs' []) j) ->
  estimate_quadric N bbs K Ms_t (Main.visibility bbs) j =
    estimate_quadric N bbs' K Ms_t (Main.visibility bbs') j.
Proof.
  intros Hlen Hbox. rewrite !estimate_quadric_observations.
  now rewrite (observations_own_boxes N bbs bbs' K Ms_t j Hlen Hbox).
Qed.

(** The reshaped vector is symmetric, and dividing or negating every entry
    keeps it so. *)
Lemma solve_quadric_symmetric (obs : list observation) :
  symmetric (solve_quadric N obs).
Proof.
  unfold solve_quadric.
  destruct (is_ellipsoid N _); [reflexivity |].
  destruct (is_ellipsoid N _); reflexivity.
Qed.

Lemma estimate_quadric_symmetric
    (bbs K Ms_t : matrix) (vis : list (list bool)) (j : nat) :
  symmetric (estimate_quadric N bbs K Ms_t vis j).
Proof.
  unfold estimate_quadric.
  destruct (_ <? _); [reflexivity | apply solve_quadric_symmetric].
Qed.

End EstimatorFacts.

(** In binary64 the two products of P * Q * P^T round the entries (0,1) and
    (1,0) differently: the product of a symmetric matrix need not be
    symmetric to the last bit. *)
Example projection_rounding :
  Lfd.symmetric Sample.Q /\
  ~ Lfd.symmetric
      (Lfd.mmul (Lfd.mmul Sample.P Sample.Q) (Lfd.transpose Sample.P)).
Proof.
  split; [reflexivity |].
  intros H.
  apply (f_equal (fun m => PrimFloat.eqb (nth 1 (nth 0 m []) 0%float)
                             1.1538000000000002%float)) in H.
  vm_compute in H. discriminate.
Qed.

(** ** The structure of the visibility matrix *)

Section VisibilityStructure.
Import NumPy Main.

Lemma firstn_plus {A : Type} (k m : nat) (l : list A) :
  firstn (k + m) l = firstn k l ++ firstn m (skipn k l).
Proof.
  revert l. induction k as [| k IH]; intros l; [reflexivity |].
  destruct l as [| x l]; simpl.
  - now rewrite firstn_nil.
  - now rewrite IH.
Qed.

Lemma seq_from (n k : nat) : seq n k = map (Nat.add n) (seq 0 k).
Proof.
  revert n. induction k as [| k IH]; intros n; [reflexivity |].
  simpl. rewrite Nat.add_0_r. f_equal.
  rewrite IH, <- (seq_shift k 0), map_map.
  apply map_ext. intros i. lia.
Qed.

(** Behind [n] complete groups the indices are shifted by [n]. *)
Lemma box_of_app_head (a b : list float) (n i : nat) :
  length a = 4 * n ->
  box_of (a ++ b) (n + i) = box_of b i.
Proof.
  intros Ha. unfold box_of, slice, NUM_BB_CORNER.
  rewrite skipn_app, skipn_all2 by lia. simpl.
  replace ((n + i) * 4 - length a) with (i * 4) by lia.
  replace ((n + i) * 4 + 4 - (n + i) * 4) with 4 by lia.
  replace (i * 4 + 4 - i * 4) with 4 by lia.
  reflexivity.
Qed.

Lemma boxes_spec (boxes : list (list float)) :
  forallb (fun b => length b =? 4) boxes = true <->
  Forall (fun b => length b = 4) boxes.
Proof.
  rewrite forallb_forall, Forall_forall.
  split; intros H b Hb; apply Nat.eqb_eq; now apply H.
Qed.

Lemma length_concat_boxes (boxes : list (list float)) :
  Forall (fun b => length b = 4) boxes ->
  length (concat boxes) = 4 * length boxes.
Proof.
  induction 1 as [| b boxes Hb _ IH]; [reflexivity |].
  simpl concat. rewrite length_app, Hb, IH. simpl. lia.
Qed.

(** In a row made of boxes, the group of index [i] is the [i]-th box. *)
Lemma box_of_concat (boxes : list (list float)) (i : nat) :
  Forall (fun b => length b = 4) boxes -> i < length boxes ->
  box_of (concat boxes) i = nth i boxes [].
Proof.
  intros H. revert i. induction H as [| b boxes Hb _ IH]; intros i Hi.
  - simpl in Hi. lia.
  - simpl concat. destruct i as [| i].
    + simpl nth.
      apply (box_of_app [] b (concat boxes) 0); [reflexivity | exact Hb].
    + change (S i) with (1 + i). rewrite (box_of_app_head b _ 1 i) by lia.
      apply IH. simpl in Hi. lia.
Qed.

(** The flags of a row made of boxes, box by box. *)
Lemma visible_objs_of_boxes (boxes : list (list float)) :
  Forall (fun b => length b = 4) boxes ->
  visible_objs (concat boxes) =
    map (fun b => negb (array_equal b sentinel)) boxes.
Proof.
  intros H. rewrite visible_objs_map. unfold NUM_BB_CORNER.
  rewrite (length_concat_boxes boxes H).
  replace (4 * length boxes / 4) with (length boxes)
    by (rewrite Nat.mul_comm, Nat.div_mul; lia).
  rewrite <- (map_seq_nth (fun b => negb (array_equal b sentinel)) boxes []).
  apply map_ext_in. intros i Hi. apply in_seq in Hi.
  rewrite visible_obj_negb, box_of_concat by (assumption || lia).
  reflexivity.
Qed.

Lemma concat_boxes_prefix (bb : list float) (n : nat) :
  4 * n <= length bb ->
  concat (map (box_of bb) (seq 0 n)) = firstn (4 * n) bb.
Proof.
  induction n as [| n IH]; intros Hn; [reflexivity |].
  rewrite seq_S, map_app, concat_app, IH by lia.
  cbn [map concat Nat.add]. rewrite app_nil_r.
  unfold box_of, slice, NUM_BB_CORNER.
  replace (n * 4 + 4 - n * 4) with 4 by lia.
  replace (4 * S n) with (4 * n + 4) by lia.
  rewrite firstn_plus. now rewrite (Nat.mul_comm n 4).
Qed.

Lemma flags_all_true (boxes : list (list float)) :
  map (fun b => negb (array_equal b sentinel)) boxes
    = repeat true (length boxes) <->
  Forall (fun b => b <> sentinel) boxes.
Proof.
  induction boxes as [| b boxes IH]; simpl.
  - split; [constructor | reflexivity].
  - split.
    + intros H. injection H as Hb Hrest. constructor.
      * apply negb_true_iff in Hb. intros E.
        apply array_equal_sentinel in E. congruence.
      * now apply IH.
    + intros H. inversion H as [| ? ? Hb Hrest]; subst. f_equal.
      * apply negb_true_iff, not_true_iff_false. intros E.
        now apply Hb, array_equal_sentinel.
      * now apply IH.
Qed.

(** X1. For a rectangular array of boxes, four columns per object, the
    visibility has one row per frame and one entry per object in every row:
    it is an n_frames x n_objects matrix. *)
Theorem visibility_shape (bbs : list (list float)) (n_objects : nat) :
  forallb (fun row => length row =? 4 * n_objects) bbs = true ->
  length (visibility bbs) = length bbs /\
  map (@length bool) (visibility bbs) = repeat n_objects (length bbs).
Proof.
  intros H. rewrite forallb_forall in H.
  rewrite visibility_map, length_map, map_map. split; [reflexivity |].
  rewrite <- map_const. apply map_ext_in. intros row Hrow.
  rewrite visible_objs_length.
  specialize (H row Hrow). apply Nat.eqb_eq in H. rewrite H.
  rewrite Nat.mul_comm. apply Nat.div_mul. lia.
Qed.

Lemma visibility_shape_witness :
  forallb (fun row => length row =? 4 * 6) bbs = true /\
  length (visibility bbs) = length bbs /\
  map (@length bool) (visibility bbs) = repeat 6 (length bbs).
Proof.
  split; [reflexivity |].
  apply (visibility_shape bbs 6). reflexivity.
Defined.

(** X2. Objects compose: the flags of a row that continues a row of
    complete groups are the flags of the first part followed by the flags of
    the continuation. *)
Theorem visible_objs_app (a b : list float) (n : nat) :
  length a = 4 * n ->
  visible_objs (a ++ b) = visible_objs a ++ visible_objs b.
Proof.
  intros Ha. rewrite !visible_objs_map. unfold NUM_BB_CORNER.
  rewrite length_app, Ha.
  replace ((4 * n + length b) / 4) with (n + length b / 4)
    by (rewrite (Nat.mul_comm 4 n), Nat.div_add_l; lia).
  replace (4 * n / 4) with n by (rewrite Nat.mul_comm, Nat.div_mul; lia).
  rewrite seq_app, map_app. f_equal.
  - apply map_ext_in. intros i Hi. apply in_seq in Hi.
    rewrite !visible_obj_negb.
    now rewrite (box_of_app_tail a b n i) by lia.
  - simpl. rewrite seq_from, map_map.
    apply map_ext. intros i. rewrite !visible_obj_negb.
    now rewrite (box_of_app_head a b n i).
Qed.

Lemma visible_objs_app_witness :
  length (firstn 12 (nth 0 bbs [])) = 4 * 3 /\
  visible_objs (firstn 12 (nth 0 bbs []) ++ skipn 12 (nth 0 bbs [])) =
    visible_objs (firstn 12 (nth 0 bbs []))
      ++ visible_objs (skipn 12 (nth 0 bbs [])).
Proof.
  split; [reflexivity |].
  apply (visible_objs_app (firstn 12 (nth 0 bbs []))
           (skipn 12 (nth 0 bbs [])) 3).
  reflexivity.
Defined.

(** X3. Flags follow boxes: when the boxes of a row are rearranged by a list
    of positions, the flags are rearranged in the same way.  The identity of
    an object is its column, nothing else. *)
Theorem visible_objs_reorder (boxes : list (list float)) (idx : list nat) :
  forallb (fun b => length b =? 4) boxes = true ->
  forallb (fun k => k <? length boxes) idx = true ->
  visible_objs (concat (map (fun k => nth k boxes []) idx)) =
    map (fun k => nth k (visible_objs (concat boxes)) false) idx.
Proof.
  intros Hboxes Hidx. apply boxes_spec in Hboxes.
  rewrite forallb_forall in Hidx.
  rewrite !visible_objs_of_boxes.
  - rewrite map_map. apply map_ext_in. intros k Hk.
    specialize (Hidx k Hk). apply Nat.ltb_lt in Hidx.
    rewrite (nth_indep _ false (negb (array_equal [] sentinel)))
      by now rewrite length_map.
    now rewrite (map_nth (fun b => negb (array_equal b sentinel))).
  - exact Hboxes.
  - apply Forall_forall. intros b Hb. apply in_map_iff in Hb.
    destruct Hb as (k & <- & Hk).
    specialize (Hidx k Hk). apply Nat.ltb_lt in Hidx.
    rewrite Forall_forall in Hboxes. now apply Hboxes, nth_In.
Qed.

Lemma visible_objs_reorder_witness :
  forallb (fun b => length b =? 4)
    (map (box_of (nth 0 bbs [])) (seq 0 6)) = true /\
  forallb (fun k => k <? length (map (box_of (nth 0 bbs [])) (seq 0 6)))
    [0; 3; 1; 2; 4; 5] = true /\
  concat (map (fun k => nth k (map (box_of (nth 0 bbs [])) (seq 0 6)) [])
            [0; 3; 1; 2; 4; 5]) = frame0_reordered /\
  visible_objs
    (concat (map (fun k => nth k (map (box_of (nth 0 bbs [])) (seq 0 6)) [])
               [0; 3; 1; 2; 4; 5])) =
    map (fun k =>
           nth k (visible_objs
                    (concat (map (box_of (nth 0 bbs [])) (seq 0 6)))) false)
        [0; 3; 1; 2; 4; 5].
Proof.
  split; [reflexivity | split; [reflexivity | split; [reflexivity |]]].
  apply (visible_objs_reorder (map (box_of (nth 0 bbs [])) (seq 0 6))
           [0; 3; 1; 2; 4; 5]); reflexivity.
Defined.

(** X4. The groups the loop compares tile the row: each has exactly four
    values, none is clipped by the end of the row, and in order they make up
    the row up to its last complete group. *)
Theorem boxes_tile_row (bb : list float) :
  Forall (fun box => length box = NUM_BB_CORNER)
    (map (box_of bb) (seq 0 (length bb / NUM_BB_CORNER))) /\
  concat (map (box_of bb) (seq 0 (length bb / NUM_BB_CORNER))) =
    firstn (NUM_BB_CORNER * (length bb / NUM_BB_CORNER)) bb.
Proof.
  unfold NUM_BB_CORNER.
  pose proof (Nat.Div0.mul_div_le (length bb) 4) as Hle.
  split.
  - apply Forall_forall. intros box Hbox. apply in_map_iff in Hbox.
    destruct Hbox as (i & <- & Hi). apply in_seq in Hi.
    unfold box_of, slice, NUM_BB_CORNER.
    rewrite length_firstn, length_skipn. lia.
  - apply concat_boxes_prefix. lia.
Qed.

(** X5. With no unknown box in a row every object of the row is visible,
    and only then: the flags are all [True] exactly when no box of the row
    is the sentinel. *)
Theorem all_visible_iff_no_sentinel (boxes : list (list float)) :
  forallb (fun b => length b =? 4) boxes = true ->
  visible_objs (concat boxes) = repeat true (length boxes) <->
  Forall (fun b => b <> sentinel) boxes.
Proof.
  intros H. apply boxes_spec in H.
  rewrite (visible_objs_of_boxes boxes H). apply flags_all_true.
Qed.

Lemma all_visible_iff_no_sentinel_witness :
  forallb (fun b => length b =? 4)
    (map (box_of (nth 1 bbs [])) (seq 0 6)) = true /\
  (visible_objs (concat (map (box_of (nth 1 bbs [])) (seq 0 6))) =
     repeat true (length (map (box_of (nth 1 bbs [])) (seq 0 6))) <->
   Forall (fun b => b <> sentinel) (map (box_of (nth 1 bbs [])) (seq 0 6))).
Proof.
  split; [reflexivity |].
  apply (all_visible_iff_no_sentinel (map (box_of (nth 1 bbs [])) (seq 0 6))).
  reflexivity.
Defined.

(** X6. When [Ms_t] stacks four rows per frame for the frames of [bbs],
    [num_frame] is the number of rows of the visibility matrix; up to three
    surplus rows of [Ms_t] do not count. *)
Theorem num_frame_visibility_rows (Ms_t bbs : list (list float)) (r : nat) :
  length Ms_t = 4 * length bbs + r ->
  r < 4 ->
  num_frame Ms_t = length (visibility bbs).
Proof.
  intros HM Hr. unfold num_frame, NUM_BB_CORNER.
  rewrite visibility_map, length_map, HM.
  symmetry. apply Nat.div_unique with (r := r); lia.
Qed.

Lemma num_frame_visibility_rows_witness :
  length Sample.Ms_t = 4 * length Sample.bbs + 0 /\
  0 < 4 /\
  num_frame Sample.Ms_t = length (visibility Sample.bbs).
Proof.
  split; [reflexivity | split; [lia |]].
  apply (num_frame_visibility_rows Sample.Ms_t Sample.bbs 0);
    [reflexivity | lia].
Defined.

End VisibilityStructure.
